(** * Adafruit_SH110x: the SH1107 bring-up sequence and the display transfer engine

    The first half embeds [Adafruit_SH1107::begin] (Adafruit_SH1107.cpp) over a
    small state monad that logs every call made to the graphics and bus
    collaborators.  The second half models the framebuffer, the rotation
    transform and the flush, whose bodies are not part of these sources. *)

From Stdlib Require Import ZArith Bool Lia.
From stdpp Require Import base tactics option numbers list.

Local Open Scope Z_scope.

(** ** Constants of Adafruit_SH110X.h *)

Definition SH110X_BLACK : Z := 0.
Definition SH110X_WHITE : Z := 1.
Definition SH110X_INVERSE : Z := 2.

Definition SH110X_MEMORYMODE : Z := 0x20.
Definition SH110X_COLUMNADDR : Z := 0x21.
Definition SH110X_PAGEADDR : Z := 0x22.
Definition SH110X_SETCONTRAST : Z := 0x81.
Definition SH110X_CHARGEPUMP : Z := 0x8D.
Definition SH110X_SEGREMAP : Z := 0xA0.
Definition SH110X_DISPLAYALLON_RESUME : Z := 0xA4.
Definition SH110X_DISPLAYALLON : Z := 0xA5.
Definition SH110X_NORMALDISPLAY : Z := 0xA6.
Definition SH110X_INVERTDISPLAY : Z := 0xA7.
Definition SH110X_SETMULTIPLEX : Z := 0xA8.
Definition SH110X_DISPLAYOFF : Z := 0xAE.
Definition SH110X_DISPLAYON : Z := 0xAF.
Definition SH110X_COMSCANINC : Z := 0xC0.
Definition SH110X_COMSCANDEC : Z := 0xC8.
Definition SH110X_SETDISPLAYOFFSET : Z := 0xD3.
Definition SH110X_SETDISPLAYCLOCKDIV : Z := 0xD5.
Definition SH110X_SETPRECHARGE : Z := 0xD9.
Definition SH110X_SETCOMPINS : Z := 0xDA.
Definition SH110X_SETVCOMDETECT : Z := 0xDB.
Definition SH110X_SETDISPSTARTLINE : Z := 0xDC.

Definition SH110X_SETSTARTLINE : Z := 0x40.

(** Modelled from the spec: [SH110X_DCDC] is used by [begin] but the header
    does not define it.  The spec names it the charge-pump/DC-DC setting; its
    value is the one written next to it in the init table of
    Adafruit_SH1107.cpp ("0xAD, 0x8A"). *)
Definition SH110X_DCDC : Z := 0xAD.

(** ** The init table of [Adafruit_SH1107::begin] *)

Definition init : list Z :=
  [ SH110X_DISPLAYOFF;
    SH110X_SETDISPLAYCLOCKDIV; 0x51;
    SH110X_MEMORYMODE;
    SH110X_SETCONTRAST; 0x4F;
    SH110X_DCDC; 0x8A;
    SH110X_SEGREMAP;
    SH110X_COMSCANINC;
    SH110X_SETDISPSTARTLINE; 0x0;
    SH110X_SETDISPLAYOFFSET; 0x60;
    SH110X_SETPRECHARGE; 0x22;
    SH110X_SETVCOMDETECT; 0x35;
    SH110X_SETMULTIPLEX; 0x3F;
    SH110X_DISPLAYALLON_RESUME;
    SH110X_NORMALDISPLAY ].

(** "Init sequence, make sure its under 32 bytes, or split into multiples!" *)
Definition init_chunk_limit : nat := 32.

(** The operations the init table is made of, one per line of the table. *)
Inductive operation : Type :=
  | DisplayOff
  | ClockDivider (arg : Z)
  | MemoryMode
  | Contrast (arg : Z)
  | DcDc (arg : Z)
  | SegmentRemap
  | ScanDirection
  | DisplayStartLine (arg : Z)
  | DisplayOffset (arg : Z)
  | Precharge (arg : Z)
  | VcomDetect (arg : Z)
  | Multiplex (arg : Z)
  | AllPixelsOnResume
  | NormalDisplay.

Definition encode (o : operation) : list Z :=
  match o with
  | DisplayOff => [SH110X_DISPLAYOFF]
  | ClockDivider a => [SH110X_SETDISPLAYCLOCKDIV; a]
  | MemoryMode => [SH110X_MEMORYMODE]
  | Contrast a => [SH110X_SETCONTRAST; a]
  | DcDc a => [SH110X_DCDC; a]
  | SegmentRemap => [SH110X_SEGREMAP]
  | ScanDirection => [SH110X_COMSCANINC]
  | DisplayStartLine a => [SH110X_SETDISPSTARTLINE; a]
  | DisplayOffset a => [SH110X_SETDISPLAYOFFSET; a]
  | Precharge a => [SH110X_SETPRECHARGE; a]
  | VcomDetect a => [SH110X_SETVCOMDETECT; a]
  | Multiplex a => [SH110X_SETMULTIPLEX; a]
  | AllPixelsOnResume => [SH110X_DISPLAYALLON_RESUME]
  | NormalDisplay => [SH110X_NORMALDISPLAY]
  end.

(** ** The driver object and its surroundings *)

(** What the constructor and the included headers fix.  [splash2_width],
    [splash2_height] and [splash2_data] come from splash.h, which is not part
    of these sources, so they are kept as fields. *)
Record config : Type := {
  WIDTH : Z;
  HEIGHT : Z;
  rst_pin : Z;
  splash2_width : Z;
  splash2_height : Z;
  splash2_data : list Z;
  reset_settle_ms : Z;
  reset_recovery_ms : Z
}.

(** The answers of the outside world: whether the framebuffer can be
    allocated, and whether the n-th bus transfer of the run goes through. *)
Record environment : Type := {
  alloc_ok : bool;
  transfer_ok : nat -> bool
}.

(** Everything [begin] does is a call into a collaborator; each call is logged
    with its arguments and, for a bus transfer, with its outcome. *)
Inductive event : Type :=
  | Init (addr : Z) (reset : bool)
  | ResetPin (level : bool)
  | Allocate (ok : bool)
  | Delay (ms : Z)
  | SetContrast (level : Z) (ok : bool)
  | SetRotation (r : Z)
  | DrawBitmap (rot : Z) (x y : Z) (bitmap : list Z) (w h : Z) (color : Z)
  | CommandList (bytes : list Z) (ok : bool)
  | Command (c : Z) (ok : bool).

Record world : Type := {
  rotation : Z;
  transfers : nat;
  log : list event
}.

(** ** A state monad over [world] *)

Definition M (A : Type) : Type := world -> A * world.

#[global] Instance M_ret : MRet M := fun A a w => (a, w).
#[global] Instance M_bind : MBind M :=
  fun A B f m w => let '(a, w') := m w in f a w'.

Definition emit (e : event) : M unit :=
  fun w => (tt, {| rotation := rotation w; transfers := transfers w;
                   log := log w ++ [e] |}).

Definition get_rotation : M Z := fun w => (rotation w, w).

Definition put_rotation (r : Z) : M unit :=
  fun w => (tt, {| rotation := r; transfers := transfers w; log := log w |}).

Section Driver.

Variable cfg : config.
Variable env : environment.

(** One transfer on the bus: the environment decides whether it succeeds. *)
Definition transfer : M bool :=
  fun w => (transfer_ok env (transfers w),
            {| rotation := rotation w; transfers := S (transfers w);
               log := log w |}).

(** *** Collaborators of [begin] *)

Definition delay (ms : Z) : M unit := emit (Delay ms).

(** Modelled from the spec: [Adafruit_GrayOLED::_init] is not part of these
    sources.  Spec 4.5: when a valid reset pin is configured and the caller
    asks for it, reset is asserted low, held, released and held again; then
    the framebuffer is allocated, and a failed allocation is reported. *)
Definition _init (addr : Z) (reset : bool) : M bool :=
  emit (Init addr reset);;
  (if reset && (0 <=? rst_pin cfg) then
     emit (ResetPin false);;
     delay (reset_settle_ms cfg);;
     emit (ResetPin true);;
     delay (reset_recovery_ms cfg)
   else mret tt);;
  emit (Allocate (alloc_ok env));;
  mret (alloc_ok env).

(** Modelled from the spec: the contrast operation is an opcode and its
    argument submitted through the bus transport (spec 2); the call reports
    nothing to its caller. *)
Definition setContrast (level : Z) : M unit :=
  ok ← transfer;
  emit (SetContrast level ok).

(** Modelled from the spec: changing the rotation state only changes the
    coordinate mapping (spec 3); the state is one of four orientations. *)
Definition setRotation (r : Z) : M unit :=
  put_rotation (Z.land r 3);;
  emit (SetRotation r).

(** The splash blit is an asset call outside the protocol engine; the log
    keeps its arguments and the rotation state it is drawn under. *)
Definition drawBitmap (x y : Z) (bitmap : list Z) (w h : Z) (color : Z)
  : M unit :=
  rot ← get_rotation;
  emit (DrawBitmap rot x y bitmap w h color).

(** Modelled from the spec: the bus transport's command write reports success
    or failure (spec 6); the first [n] bytes of [c] go out as one submission. *)
Definition oled_commandList (c : list Z) (n : nat) : M bool :=
  ok ← transfer;
  emit (CommandList (take n c) ok);;
  mret ok.

Definition oled_command (c : Z) : M bool :=
  ok ← transfer;
  emit (Command c ok);;
  mret ok.

(** *** [Adafruit_SH1107::begin] *)

Definition begin (addr : Z) (reset : bool) : M bool :=
  _init addr reset;;
  setContrast 0x2F;;
  (if (WIDTH cfg =? 64) && (HEIGHT cfg =? 128) then
     setRotation 1;;
     drawBitmap ((HEIGHT cfg - splash2_width cfg) `quot` 2)
                ((WIDTH cfg - splash2_height cfg) `quot` 2)
                (splash2_data cfg) (splash2_width cfg) (splash2_height cfg) 1;;
     setRotation 0
   else mret tt);;
  ok ← oled_commandList init (length init);
  if negb ok then mret false
  else
    delay 100;;
    oled_command SH110X_DISPLAYON;;
    mret true.

End Driver.

(** ** What a run of [begin] leaves in the log *)

Definition events_since (w w' : world) : list event :=
  drop (length (log w)) (log w').

Definition begin_events (cfg : config) (env : environment) (addr : Z)
    (reset : bool) (w : world) : list event :=
  events_since w (begin cfg env addr reset w).2.

Definition is_splash_panel (cfg : config) : bool :=
  (WIDTH cfg =? 64) && (HEIGHT cfg =? 128).

Definition reset_events (cfg : config) (reset : bool) : list event :=
  if reset && (0 <=? rst_pin cfg) then
    [ResetPin false; Delay (reset_settle_ms cfg); ResetPin true;
     Delay (reset_recovery_ms cfg)]
  else [].

Definition splash_events (cfg : config) : list event :=
  if is_splash_panel cfg then
    [SetRotation 1;
     DrawBitmap 1 ((HEIGHT cfg - splash2_width cfg) `quot` 2)
                ((WIDTH cfg - splash2_height cfg) `quot` 2)
                (splash2_data cfg) (splash2_width cfg) (splash2_height cfg) 1;
     SetRotation 0]
  else [].

Definition epilogue_events (env : environment) (w : world) : list event :=
  CommandList init (transfer_ok env (S (transfers w)))
    :: (if transfer_ok env (S (transfers w)) then
          [Delay 100;
           Command SH110X_DISPLAYON (transfer_ok env (S (S (transfers w))))]
        else []).

Definition prologue_events (cfg : config) (env : environment) (addr : Z)
    (reset : bool) (w : world) : list event :=
  Init addr reset :: reset_events cfg reset
    ++ [Allocate (alloc_ok env); SetContrast 0x2F (transfer_ok env (transfers w))]
    ++ splash_events cfg.

(** *** Classifying the logged calls *)

Definition is_submission (e : event) : bool :=
  match e with
  | CommandList _ _ | Command _ _ => true
  | _ => false
  end.

Definition is_init_call (e : event) : bool :=
  match e with
  | Init _ _ => true
  | _ => false
  end.


Definition is_reset_pin (e : event) : bool :=
  match e with
  | ResetPin _ => true
  | _ => false
  end.

Definition is_splash_call (e : event) : bool :=
  match e with
  | SetRotation _ | DrawBitmap _ _ _ _ _ _ _ => true
  | _ => false
  end.

(** Modelled from the spec: the controller power states of spec 4.5, read off
    the log.  A reset-pin operation means [Resetting]; the framebuffer
    allocation opens [Configuring]; a display-on command that reaches the
    controller gives [On], a display-off command gives [Off]. *)
Inductive power_state : Type :=
  | Uninitialized
  | Resetting
  | Configuring
  | On
  | Off.

Definition power_step (s : power_state) (e : event) : power_state :=
  match e with
  | ResetPin _ => Resetting
  | Allocate _ => Configuring
  | Command c true =>
      if c =? SH110X_DISPLAYON then On
      else if c =? SH110X_DISPLAYOFF then Off
      else s
  | _ => s
  end.

Definition power_after (evs : list event) : power_state :=
  foldl power_step Uninitialized evs.

(** *** Sample set-ups used to run the model *)

Definition featherwing : config :=
  {| WIDTH := 64; HEIGHT := 128; rst_pin := -1;
     splash2_width := 115; splash2_height := 32; splash2_data := [];
     reset_settle_ms := 10; reset_recovery_ms := 10 |}.

Definition square_panel : config :=
  {| WIDTH := 128; HEIGHT := 128; rst_pin := 4;
     splash2_width := 115; splash2_height := 32; splash2_data := [];
     reset_settle_ms := 10; reset_recovery_ms := 10 |}.

Definition reliable_bus : environment :=
  {| alloc_ok := true; transfer_ok := fun _ => true |}.

(** A bus on which exactly the [k]-th transfer of the run fails. *)
Definition failing_at (k : nat) : environment :=
  {| alloc_ok := true; transfer_ok := fun n => negb (n =? k)%nat |}.

Definition fresh : world := {| rotation := 0; transfers := 0; log := [] |}.

(** * The display transfer engine

    The header declares [display] and inherits the pixel operations; their
    bodies are not part of these sources.  The definitions of this part follow
    the design given in the spec (sections 3, 4.1 to 4.4 and 6). *)

(** Modelled from the spec: the pixel colours of spec 4.1, off, on and
    invert; the header calls them [SH110X_BLACK], [SH110X_WHITE] and
    [SH110X_INVERSE]. *)
Inductive color : Type :=
  | ColorOff
  | ColorOn
  | ColorInvert.

Definition color_code (c : color) : Z :=
  match c with
  | ColorOff => SH110X_BLACK
  | ColorOn => SH110X_WHITE
  | ColorInvert => SH110X_INVERSE
  end.

(** Modelled from the spec: the four orientations of spec 4.4. *)
Inductive orientation : Type :=
  | Rot0
  | Rot90
  | Rot180
  | Rot270.

(** Modelled from the spec: the display geometry of spec 3, fixed at
    construction. *)
Record geometry : Type := {
  width : Z;
  height : Z
}.

(** Modelled from the spec: the dirty region of spec 3, the bounding window of
    the bytes modified since the last flush; [None] is the empty region. *)
Record window : Type := {
  minPage : Z;
  maxPage : Z;
  minColumn : Z;
  maxColumn : Z
}.

Record display_state : Type := {
  geom : geometry;
  framebuffer : list Z;
  orient : orientation;
  dirty : option window
}.

(** Modelled from the spec: one byte per column per page of 8 rows, so
    [ceil(height/8) * width] bytes (spec 3). *)
Definition page_count (g : geometry) : Z := (height g + 7) / 8.

Definition buffer_size (g : geometry) : Z := page_count g * width g.

Definition well_formed (s : display_state) : Prop :=
  length (framebuffer s) = Z.to_nat (buffer_size (geom s)).

(** ** Rotation transform *)

(** Modelled from the spec: rotating swaps the effective width and height
    seen by drawing code (spec 3). *)
Definition logical_width (g : geometry) (o : orientation) : Z :=
  match o with
  | Rot0 | Rot180 => width g
  | Rot90 | Rot270 => height g
  end.

Definition logical_height (g : geometry) (o : orientation) : Z :=
  match o with
  | Rot0 | Rot180 => height g
  | Rot90 | Rot270 => width g
  end.

(** Modelled from the spec: the mapping of logical to physical coordinates
    under a rotation by 0, 90, 180 or 270 degrees (spec 4.4). *)
Definition physical (g : geometry) (o : orientation) (x y : Z) : Z * Z :=
  match o with
  | Rot0 => (x, y)
  | Rot90 => (width g - 1 - y, x)
  | Rot180 => (width g - 1 - x, height g - 1 - y)
  | Rot270 => (y, height g - 1 - x)
  end.

Definition in_bounds (g : geometry) (o : orientation) (x y : Z) : bool :=
  (0 <=? x) && (x <? logical_width g o)
  && (0 <=? y) && (y <? logical_height g o).

(** ** Framebuffer *)

(** Modelled from the spec: the byte of a physical pixel is at
    [page = y/8], [column = x], and the pixel is bit [y%8] of it (spec 4.1). *)
Definition byte_index (g : geometry) (px py : Z) : nat :=
  Z.to_nat ((py / 8) * width g + px).

Definition bit_position (py : Z) : Z := py mod 8.

Definition write_bit (c : color) (byte bit : Z) : Z :=
  match c with
  | ColorOn => Z.lor byte (Z.shiftl 1 bit)
  | ColorOff => Z.land byte (Z.lnot (Z.shiftl 1 bit))
  | ColorInvert => Z.lxor byte (Z.shiftl 1 bit)
  end.

Definition extend (d : option window) (page column : Z) : option window :=
  match d with
  | None =>
      Some {| minPage := page; maxPage := page;
              minColumn := column; maxColumn := column |}
  | Some w =>
      Some {| minPage := Z.min (minPage w) page;
              maxPage := Z.max (maxPage w) page;
              minColumn := Z.min (minColumn w) column;
              maxColumn := Z.max (maxColumn w) column |}
  end.

(** Modelled from the spec: [setPixel] of spec 4.1.  Coordinates outside the
    logical bounds are silently dropped; otherwise the rotation transform is
    applied, the bit is set, cleared or toggled, and the dirty region grows
    to include the byte. *)
Definition setPixel (s : display_state) (x y : Z) (c : color)
  : display_state :=
  if in_bounds (geom s) (orient s) x y then
    let '(px, py) := physical (geom s) (orient s) x y in
    let i := byte_index (geom s) px py in
    let old := default 0 (framebuffer s !! i) in
    {| geom := geom s;
       framebuffer := <[i := write_bit c old (bit_position py)]> (framebuffer s);
       orient := orient s;
       dirty := extend (dirty s) (py / 8) px |}
  else s.

(** Reading back the framebuffer bit of a logical pixel. *)
Definition getPixel (s : display_state) (x y : Z) : bool :=
  let '(px, py) := physical (geom s) (orient s) x y in
  Z.testbit (default 0 (framebuffer s !! byte_index (geom s) px py))
            (bit_position py).

(** The bit a colour leaves in a pixel that held [old]. *)
Definition written (c : color) (old : bool) : bool :=
  match c with
  | ColorOn => true
  | ColorOff => false
  | ColorInvert => negb old
  end.

(** Modelled from the spec: [clear] zeroes the buffer and marks the whole
    surface dirty (spec 4.1). *)
Definition clear (s : display_state) : display_state :=
  {| geom := geom s;
     framebuffer := replicate (length (framebuffer s)) 0;
     orient := orient s;
     dirty := Some {| minPage := 0; maxPage := page_count (geom s) - 1;
                      minColumn := 0; maxColumn := width (geom s) - 1 |} |}.

(** ** Bus transport and command sequencer *)









(** ** Addressing and transfer protocol *)










(** *** Sample set-ups used to run the model *)

Definition panel_128x64 : geometry := {| width := 128; height := 64 |}.

Definition blank (g : geometry) : display_state :=
  {| geom := g; framebuffer := replicate (Z.to_nat (buffer_size g)) 0;
     orient := Rot0; dirty := None |}.




(** * Proofs *)

(** ** The shape of a run of [begin] *)

Lemma events_since_app (w w' : world) (evs : list event) :
  log w' = log w ++ evs -> events_since w w' = evs.
Proof.
  intros E. unfold events_since. rewrite E. apply drop_app_length.
Qed.

Lemma begin_run cfg env addr reset w :
  let ok := transfer_ok env (S (transfers w)) in
  begin cfg env addr reset w =
    (ok,
     {| rotation := if is_splash_panel cfg then 0 else rotation w;
        transfers := if ok then S (S (S (transfers w))) else S (S (transfers w));
        log := log w ++ prologue_events cfg env addr reset w
                 ++ CommandList init ok
                 :: (if ok then
                       [Delay 100;
                        Command SH110X_DISPLAYON
                                (transfer_ok env (S (S (transfers w))))]
                     else []) |}).
Proof.
  destruct w as [rot n lg].
  unfold prologue_events, reset_events, splash_events, is_splash_panel.
  cbv [begin _init setContrast setRotation drawBitmap oled_commandList
       oled_command delay transfer emit get_rotation put_rotation
       mbind mret M_bind M_ret rotation transfers log].
  destruct (reset && (0 <=? rst_pin cfg));
    destruct ((WIDTH cfg =? 64) && (HEIGHT cfg =? 128));
    cbv beta iota zeta;
    destruct (transfer_ok env (S n)); cbv beta iota zeta delta [negb];
    rewrite <- ?app_assoc; reflexivity.
Qed.

Lemma begin_events_run cfg env addr reset w :
  begin_events cfg env addr reset w =
    prologue_events cfg env addr reset w
      ++ CommandList init (transfer_ok env (S (transfers w)))
      :: (if transfer_ok env (S (transfers w)) then
            [Delay 100;
             Command SH110X_DISPLAYON (transfer_ok env (S (S (transfers w))))]
          else []).
Proof.
  unfold begin_events. apply events_since_app.
  pose proof (begin_run cfg env addr reset w) as R. cbv zeta in R.
  rewrite R. reflexivity.
Qed.

Lemma begin_result cfg env addr reset w :
  (begin cfg env addr reset w).1 = transfer_ok env (S (transfers w)).
Proof.
  pose proof (begin_run cfg env addr reset w) as R. cbv zeta in R.
  rewrite R. reflexivity.
Qed.

(** ** Facts shared by the claims about [begin] *)

Lemma reset_events_no_submission cfg reset :
  Forall (fun e => is_submission e = false) (reset_events cfg reset).
Proof.
  unfold reset_events. destruct (reset && (0 <=? rst_pin cfg));
    repeat constructor.
Qed.

Lemma splash_events_no_submission cfg :
  Forall (fun e => is_submission e = false) (splash_events cfg).
Proof.
  unfold splash_events. destruct (is_splash_panel cfg); repeat constructor.
Qed.

Lemma prologue_no_submission cfg env addr reset w :
  Forall (fun e => is_submission e = false)
         (prologue_events cfg env addr reset w).
Proof.
  unfold prologue_events. constructor; [reflexivity |].
  apply Forall_app. split; [apply reset_events_no_submission |].
  apply Forall_app. split; [repeat constructor |].
  apply splash_events_no_submission.
Qed.

Lemma not_submission_in_prologue cfg env addr reset w e :
  e ∈ prologue_events cfg env addr reset w -> is_submission e = false.
Proof.
  intros He.
  exact (proj1 (Forall_forall _ _) (prologue_no_submission cfg env addr reset w)
               e He).
Qed.

Lemma begin_command_lists cfg env addr reset w bytes ok :
  CommandList bytes ok ∈ begin_events cfg env addr reset w ->
  bytes = init /\ ok = transfer_ok env (S (transfers w)).
Proof.
  rewrite begin_events_run, elem_of_app, elem_of_cons.
  intros [Hp | [Heq | Ht]].
  - apply not_submission_in_prologue in Hp. discriminate.
  - inversion Heq. auto.
  - destruct (transfer_ok env (S (transfers w))).
    + apply elem_of_cons in Ht as [Ht | Ht]; [discriminate |].
      apply list_elem_of_singleton in Ht. discriminate.
    + inversion Ht.
Qed.

Lemma begin_commands cfg env addr reset w c ok :
  Command c ok ∈ begin_events cfg env addr reset w ->
  c = SH110X_DISPLAYON /\ transfer_ok env (S (transfers w)) = true.
Proof.
  rewrite begin_events_run, elem_of_app, elem_of_cons.
  intros [Hp | [Heq | Ht]].
  - apply not_submission_in_prologue in Hp. discriminate.
  - discriminate.
  - destruct (transfer_ok env (S (transfers w))).
    + apply elem_of_cons in Ht as [Ht | Ht]; [discriminate |].
      apply list_elem_of_singleton in Ht. inversion Ht. auto.
    + inversion Ht.
Qed.

(** ** The bring-up sequence *)

(** C1. In every run in which [begin] returns success, the calls it logged
    end with the init table handed over as one command-list submission that
    succeeded, then the 100 ms settle delay, then the display-on command as
    the last call; nothing before the table is a command-list or single
    command submission, and the table is the fourteen operations in the order
    of the source. *)
Theorem begin_success_sequence cfg env addr reset w :
  (begin cfg env addr reset w).1 = true ->
  exists pre ok,
    begin_events cfg env addr reset w =
      pre ++ [CommandList init true; Delay 100; Command SH110X_DISPLAYON ok]
    /\ Forall (fun e => is_submission e = false) pre
    /\ init = concat (map encode
         [DisplayOff; ClockDivider 0x51; MemoryMode; Contrast 0x4F; DcDc 0x8A;
          SegmentRemap; ScanDirection; DisplayStartLine 0x0;
          DisplayOffset 0x60; Precharge 0x22; VcomDetect 0x35; Multiplex 0x3F;
          AllPixelsOnResume; NormalDisplay]).
Proof.
  intros Hok. rewrite begin_result in Hok.
  exists (prologue_events cfg env addr reset w),
         (transfer_ok env (S (S (transfers w)))).
  split; [| split].
  - rewrite begin_events_run, Hok. reflexivity.
  - apply prologue_no_submission.
  - reflexivity.
Qed.

Lemma begin_success_sequence_witness :
  (begin featherwing reliable_bus 0x3C true fresh).1 = true
  /\ exists pre ok,
       begin_events featherwing reliable_bus 0x3C true fresh =
         pre ++ [CommandList init true; Delay 100; Command SH110X_DISPLAYON ok]
       /\ Forall (fun e => is_submission e = false) pre
       /\ init = concat (map encode
            [DisplayOff; ClockDivider 0x51; MemoryMode; Contrast 0x4F;
             DcDc 0x8A; SegmentRemap; ScanDirection; DisplayStartLine 0x0;
             DisplayOffset 0x60; Precharge 0x22; VcomDetect 0x35;
             Multiplex 0x3F; AllPixelsOnResume; NormalDisplay]).
Proof.
  split; [reflexivity |].
  apply (begin_success_sequence featherwing reliable_bus 0x3C true fresh).
  reflexivity.
Defined.

(** C2. On a bus where every transfer goes through except the one carrying
    the final display-on command, [begin] logs that failed transfer and still
    returns success. *)
Theorem begin_ignores_displayon_failure :
  (begin featherwing (failing_at 2) 0x3C true fresh).1 = true
  /\ last (begin_events featherwing (failing_at 2) 0x3C true fresh)
       = Some (Command SH110X_DISPLAYON false).
Proof. split; reflexivity. Qed.

(** C3. In every run in which the submission of the init table fails,
    [begin] returns failure, that failed submission is the last call of the
    run, and no single command (so no display-on) is ever issued. *)
Theorem begin_aborts_on_list_failure cfg env addr reset w bytes :
  CommandList bytes false ∈ begin_events cfg env addr reset w ->
  (begin cfg env addr reset w).1 = false
  /\ last (begin_events cfg env addr reset w) = Some (CommandList init false)
  /\ forall c ok, Command c ok ∉ begin_events cfg env addr reset w.
Proof.
  intros Hin.
  destruct (begin_command_lists _ _ _ _ _ _ _ Hin) as [_ Hfail].
  symmetry in Hfail. split; [| split].
  - rewrite begin_result. exact Hfail.
  - rewrite begin_events_run, Hfail. apply last_snoc.
  - intros c ok Hc. apply begin_commands in Hc as [_ Hc]. congruence.
Qed.

Lemma begin_aborts_on_list_failure_witness :
  CommandList init false ∈ begin_events featherwing (failing_at 1) 0x3C true fresh
  /\ (begin featherwing (failing_at 1) 0x3C true fresh).1 = false
  /\ last (begin_events featherwing (failing_at 1) 0x3C true fresh)
       = Some (CommandList init false)
  /\ forall c ok,
       Command c ok ∉ begin_events featherwing (failing_at 1) 0x3C true fresh.
Proof.
  assert (H : CommandList init false
                ∈ begin_events featherwing (failing_at 1) 0x3C true fresh).
  { apply list_elem_of_lookup. exists 6%nat. reflexivity. }
  split; [exact H |].
  exact (begin_aborts_on_list_failure featherwing (failing_at 1) 0x3C true
           fresh init H).
Defined.

(** C4. The init table is 22 bytes long, which is within the 32-byte limit
    named in the source comment, and every command-list submission of a run
    of [begin] carries exactly that table. *)
Theorem init_fits_one_chunk cfg env addr reset w :
  length init = 22%nat
  /\ (length init <= init_chunk_limit)%nat
  /\ forall bytes ok,
       CommandList bytes ok ∈ begin_events cfg env addr reset w ->
       bytes = init /\ (length bytes <= init_chunk_limit)%nat.
Proof.
  split; [reflexivity |]. split; [unfold init_chunk_limit; simpl; lia |].
  intros bytes ok Hin. apply begin_command_lists in Hin as [-> _].
  split; [reflexivity | unfold init_chunk_limit; simpl; lia].
Qed.

(** C10. The init table is, byte for byte, AE D5 51 20 81 4F AD 8A A0 C0 DC
    00 D3 60 D9 22 DB 35 A8 3F A4 A6; the display-on command is AF; these are
    the bytes of every command-list and single-command submission of a run
    of [begin]. *)
Theorem init_resolves_to_bytes cfg env addr reset w :
  init = [0xAE; 0xD5; 0x51; 0x20; 0x81; 0x4F; 0xAD; 0x8A; 0xA0; 0xC0; 0xDC;
          0x00; 0xD3; 0x60; 0xD9; 0x22; 0xDB; 0x35; 0xA8; 0x3F; 0xA4; 0xA6]
  /\ SH110X_DISPLAYON = 0xAF
  /\ (forall bytes ok,
        CommandList bytes ok ∈ begin_events cfg env addr reset w ->
        bytes = [0xAE; 0xD5; 0x51; 0x20; 0x81; 0x4F; 0xAD; 0x8A; 0xA0; 0xC0;
                 0xDC; 0x00; 0xD3; 0x60; 0xD9; 0x22; 0xDB; 0x35; 0xA8; 0x3F;
                 0xA4; 0xA6])
  /\ (forall c ok,
        Command c ok ∈ begin_events cfg env addr reset w -> c = 0xAF).
Proof.
  split; [reflexivity |]. split; [reflexivity |]. split.
  - intros bytes ok Hin. apply begin_command_lists in Hin as [-> _].
    reflexivity.
  - intros c ok Hin. apply begin_commands in Hin as [-> _]. reflexivity.
Qed.

(** ** Reset forwarding and the splash screen *)

Lemma reset_events_no_splash cfg reset :
  Forall (fun e => is_splash_call e = false) (reset_events cfg reset).
Proof.
  unfold reset_events. destruct (reset && (0 <=? rst_pin cfg));
    repeat constructor.
Qed.

Lemma epilogue_no_splash (ok ok' : bool) :
  Forall (fun e => is_splash_call e = false)
    (CommandList init ok
       :: (if ok then [Delay 100; Command SH110X_DISPLAYON ok'] else [])).
Proof. destruct ok; repeat constructor. Qed.

Lemma is_splash_panel_spec cfg :
  is_splash_panel cfg = true <-> WIDTH cfg = 64 /\ HEIGHT cfg = 128.
Proof.
  unfold is_splash_panel. rewrite andb_true_iff, !Z.eqb_eq. reflexivity.
Qed.

Lemma reset_events_pin cfg reset level :
  ResetPin level ∈ reset_events cfg reset -> reset = true /\ 0 <= rst_pin cfg.
Proof.
  unfold reset_events.
  destruct (reset && (0 <=? rst_pin cfg)) eqn:E; [| intros H; inversion H].
  intros _. apply andb_true_iff in E as [-> E]. split; [reflexivity | lia].
Qed.

Lemma reset_events_none cfg reset :
  rst_pin cfg < 0 -> reset_events cfg reset = [].
Proof.
  intros H. unfold reset_events.
  replace (0 <=? rst_pin cfg) with false by (symmetry; apply Z.leb_gt; lia).
  rewrite andb_false_r. reflexivity.
Qed.

Lemma splash_events_no_pin cfg :
  Forall (fun e => is_reset_pin e = false) (splash_events cfg).
Proof.
  unfold splash_events. destruct (is_splash_panel cfg); repeat constructor.
Qed.

Lemma power_after_display_on pre bytes ok ms :
  power_after (pre ++ [CommandList bytes ok; Delay ms;
                       Command SH110X_DISPLAYON true]) = On.
Proof. unfold power_after. rewrite foldl_app. reflexivity. Qed.

Lemma begin_events_split cfg env addr reset w :
  begin_events cfg env addr reset w =
    Init addr reset :: reset_events cfg reset
      ++ [Allocate (alloc_ok env);
          SetContrast 0x2F (transfer_ok env (transfers w))]
      ++ splash_events cfg ++ epilogue_events env w.
Proof.
  rewrite begin_events_run. unfold prologue_events, epilogue_events.
  cbn [app]. rewrite <- !app_assoc. reflexivity.
Qed.

Lemma reset_events_no_init cfg reset :
  Forall (fun e => is_init_call e = false) (reset_events cfg reset).
Proof.
  unfold reset_events. destruct (reset && (0 <=? rst_pin cfg));
    repeat constructor.
Qed.

Lemma configure_no_init_no_pin cfg env w :
  Forall (fun e => is_init_call e = false /\ is_reset_pin e = false)
    ([Allocate (alloc_ok env);
      SetContrast 0x2F (transfer_ok env (transfers w))]
       ++ splash_events cfg ++ epilogue_events env w).
Proof.
  unfold splash_events, epilogue_events.
  destruct (is_splash_panel cfg); destruct (transfer_ok env (S (transfers w)));
    repeat constructor.
Qed.

(** C8. [begin] opens with the call to the underlying initialization, made
    with the caller's own address and reset request, and makes no other such
    call.  Reset-pin operations occur in the run exactly when the caller
    asked for a reset and a reset pin is configured.  With no reset pin, and
    every transfer of the run going through, [begin] succeeds, the controller
    is [On] at the end and the run holds no reset-pin operation. *)
Theorem begin_forwards_reset cfg env addr reset w :
  let evs := begin_events cfg env addr reset w in
  head evs = Some (Init addr reset)
  /\ (forall a r, Init a r ∈ evs -> a = addr /\ r = reset)
  /\ ((exists level, ResetPin level ∈ evs)
      <-> reset = true /\ 0 <= rst_pin cfg)
  /\ (rst_pin cfg < 0 ->
      (forall n,
         (transfers w <= n < transfers (begin cfg env addr reset w).2)%nat ->
         transfer_ok env n = true) ->
      (begin cfg env addr reset w).1 = true
      /\ power_after evs = On
      /\ Forall (fun e => is_reset_pin e = false) evs).
Proof.
  cbv zeta.
  pose proof (configure_no_init_no_pin cfg env w) as Hconf.
  rewrite Forall_forall in Hconf.
  split; [| split; [| split]].
  - rewrite begin_events_split. reflexivity.
  - rewrite begin_events_split. intros a r Hin.
    apply elem_of_cons in Hin as [Heq | Hin]; [inversion Heq; auto |].
    exfalso. apply elem_of_app in Hin as [Hin | Hin].
    + pose proof (reset_events_no_init cfg reset) as Hr.
      rewrite Forall_forall in Hr. apply Hr in Hin. discriminate.
    + apply Hconf in Hin as [Hin _]. discriminate.
  - rewrite begin_events_split. split.
    + intros [level Hin].
      apply elem_of_cons in Hin as [Heq | Hin]; [discriminate |].
      apply elem_of_app in Hin as [Hin | Hin].
      * eapply reset_events_pin; eassumption.
      * apply Hconf in Hin as [_ Hin]. discriminate.
    + intros [-> Hpin]. exists false. unfold reset_events.
      replace (0 <=? rst_pin cfg) with true by (symmetry; apply Z.leb_le; lia).
      cbn [andb app]. apply list_elem_of_further, list_elem_of_here.
  - intros Hpin Hbus.
    pose proof (begin_run cfg env addr reset w) as R. cbv zeta in R.
    rewrite R in Hbus. cbn [snd transfers] in Hbus.
    assert (H1 : transfer_ok env (S (transfers w)) = true).
    { apply Hbus. destruct (transfer_ok env (S (transfers w))); lia. }
    rewrite H1 in Hbus.
    assert (H2 : transfer_ok env (S (S (transfers w))) = true).
    { apply Hbus. lia. }
    split; [rewrite begin_result; exact H1 |]. split.
    + rewrite begin_events_run, H1, H2. apply power_after_display_on.
    + rewrite begin_events_split, reset_events_none by exact Hpin.
      constructor; [reflexivity |].
      apply Forall_forall. intros e He. apply Hconf in He as [_ He]. exact He.
Qed.

Lemma begin_forwards_reset_witness :
  rst_pin featherwing < 0
  /\ (begin featherwing reliable_bus 0x3C true fresh).1 = true
  /\ power_after (begin_events featherwing reliable_bus 0x3C true fresh) = On
  /\ Forall (fun e => is_reset_pin e = false)
            (begin_events featherwing reliable_bus 0x3C true fresh).
Proof.
  split; [reflexivity |].
  apply (begin_forwards_reset featherwing reliable_bus 0x3C true fresh).
  - reflexivity.
  - intros n _. reflexivity.
Defined.

(** C9. On a 64x128 panel the run of [begin] holds exactly one bitmap draw:
    rotation is set to 1, the splash is drawn under rotation 1, rotation is
    set to 0, and the run goes on with rotation 0.  On every other geometry
    the run holds no bitmap draw and no rotation change, and the rotation
    state is the one [begin] started with. *)
Theorem begin_splash_only_on_64x128 cfg env addr reset w :
  let evs := begin_events cfg env addr reset w in
  let w' := (begin cfg env addr reset w).2 in
  (WIDTH cfg = 64 /\ HEIGHT cfg = 128 ->
   exists pre post,
     evs = pre
             ++ [SetRotation 1;
                 DrawBitmap 1 ((HEIGHT cfg - splash2_width cfg) `quot` 2)
                   ((WIDTH cfg - splash2_height cfg) `quot` 2)
                   (splash2_data cfg) (splash2_width cfg) (splash2_height cfg)
                   1;
                 SetRotation 0]
             ++ post
     /\ Forall (fun e => is_splash_call e = false) pre
     /\ Forall (fun e => is_splash_call e = false) post
     /\ rotation w' = 0)
  /\ (~ (WIDTH cfg = 64 /\ HEIGHT cfg = 128) ->
      Forall (fun e => is_splash_call e = false) evs
      /\ rotation w' = rotation w).
Proof.
  cbv zeta.
  pose proof (begin_run cfg env addr reset w) as R. cbv zeta in R.
  rewrite begin_events_split, R. cbn [snd rotation].
  unfold splash_events. split.
  - intros Hgeo. apply is_splash_panel_spec in Hgeo. rewrite Hgeo.
    exists (Init addr reset :: reset_events cfg reset
              ++ [Allocate (alloc_ok env);
                  SetContrast 0x2F (transfer_ok env (transfers w))]),
           (epilogue_events env w).
    split; [| split; [| split]].
    + cbn [app]. rewrite <- !app_assoc. reflexivity.
    + constructor; [reflexivity |]. apply Forall_app.
      split; [apply reset_events_no_splash | repeat constructor].
    + apply epilogue_no_splash.
    + reflexivity.
  - intros Hgeo. rewrite <- is_splash_panel_spec in Hgeo.
    apply not_true_is_false in Hgeo. rewrite Hgeo.
    split; [| reflexivity].
    constructor; [reflexivity |]. apply Forall_app.
    split; [apply reset_events_no_splash |].
    apply Forall_app. split; [repeat constructor |].
    apply epilogue_no_splash.
Qed.

Lemma begin_splash_only_on_64x128_witness :
  (WIDTH featherwing = 64 /\ HEIGHT featherwing = 128)
  /\ (exists pre post,
        begin_events featherwing reliable_bus 0x3C true fresh =
          pre ++ [SetRotation 1; DrawBitmap 1 6 16 [] 115 32 1; SetRotation 0]
              ++ post
        /\ Forall (fun e => is_splash_call e = false) pre
        /\ Forall (fun e => is_splash_call e = false) post
        /\ rotation (begin featherwing reliable_bus 0x3C true fresh).2 = 0)
  /\ ~ (WIDTH square_panel = 64 /\ HEIGHT square_panel = 128)
  /\ Forall (fun e => is_splash_call e = false)
            (begin_events square_panel reliable_bus 0x3C true
               {| rotation := 2; transfers := 0; log := [] |})
  /\ rotation (begin square_panel reliable_bus 0x3C true
                 {| rotation := 2; transfers := 0; log := [] |}).2 = 2.
Proof.
  assert (G1 : WIDTH featherwing = 64 /\ HEIGHT featherwing = 128)
    by (split; reflexivity).
  assert (G2 : ~ (WIDTH square_panel = 64 /\ HEIGHT square_panel = 128))
    by (intros [H _]; discriminate H).
  split; [exact G1 |]. split.
  - exact (proj1 (begin_splash_only_on_64x128 featherwing reliable_bus 0x3C
                    true fresh) G1).
  - split; [exact G2 |].
    exact (proj2 (begin_splash_only_on_64x128 square_panel reliable_bus 0x3C
                    true {| rotation := 2; transfers := 0; log := [] |}) G2).
Defined.

(** ** Framebuffer reads and writes *)

Lemma in_bounds_spec g o x y :
  in_bounds g o x y = true <->
  0 <= x < logical_width g o /\ 0 <= y < logical_height g o.
Proof.
  unfold in_bounds. rewrite !andb_true_iff, !Z.leb_le, !Z.ltb_lt. lia.
Qed.

Lemma physical_in_range g o x y px py :
  in_bounds g o x y = true ->
  physical g o x y = (px, py) ->
  0 <= px < width g /\ 0 <= py < height g.
Proof.
  rewrite in_bounds_spec. intros [Hx Hy] Hp.
  destruct o; cbn in Hx, Hy, Hp; inversion Hp; subst; lia.
Qed.

Lemma page_below_count g py :
  0 <= py < height g -> 0 <= py / 8 < page_count g.
Proof.
  intros Hy. unfold page_count. split.
  - apply Z.div_pos; lia.
  - apply Z.div_lt_upper_bound; [lia |].
    pose proof (Z.mul_div_le (height g + 7) 8 ltac:(lia)).
    pose proof (Z.mod_pos_bound (height g + 7) 8 ltac:(lia)).
    pose proof (Z.div_mod (height g + 7) 8 ltac:(lia)). lia.
Qed.

Lemma byte_index_in_buffer g px py :
  0 <= px < width g -> 0 <= py < height g ->
  (byte_index g px py < Z.to_nat (buffer_size g))%nat.
Proof.
  intros Hx Hy. pose proof (page_below_count g py Hy) as Hp.
  unfold byte_index, buffer_size. apply Z2Nat.inj_lt; nia.
Qed.

Lemma bit_position_range py : 0 <= bit_position py < 8.
Proof. unfold bit_position. apply Z.mod_pos_bound. lia. Qed.

Lemma testbit_one_shifted k : 0 <= k -> Z.testbit (Z.shiftl 1 k) k = true.
Proof.
  intros Hk. rewrite Z.shiftl_spec by exact Hk. rewrite Z.sub_diag.
  reflexivity.
Qed.

Lemma write_bit_testbit c byte k :
  0 <= k -> Z.testbit (write_bit c byte k) k = written c (Z.testbit byte k).
Proof.
  intros Hk. destruct c; cbn [write_bit written].
  - rewrite Z.land_spec, Z.lnot_spec, testbit_one_shifted by exact Hk.
    apply andb_false_r.
  - rewrite Z.lor_spec, testbit_one_shifted by exact Hk. apply orb_true_r.
  - rewrite Z.lxor_spec, testbit_one_shifted by exact Hk. apply xorb_true_r.
Qed.

(** C5. On a framebuffer of the size its geometry asks for, and under every
    rotation state: writing a pixel inside the logical bounds and reading its
    framebuffer bit back gives on for colour on, off for colour off, and the
    inverse of the former bit for colour invert; writing a pixel outside the
    logical bounds returns the state as it was, the framebuffer byte for byte
    the same. *)
Theorem setPixel_read_back s x y c :
  well_formed s ->
  (in_bounds (geom s) (orient s) x y = true ->
   getPixel (setPixel s x y c) x y = written c (getPixel s x y))
  /\ (in_bounds (geom s) (orient s) x y = false ->
      setPixel s x y c = s
      /\ framebuffer (setPixel s x y c) = framebuffer s).
Proof.
  intros Hwf. split.
  - intros Hin. unfold setPixel, getPixel. rewrite Hin.
    destruct (physical (geom s) (orient s) x y) as [px py] eqn:Hp.
    cbn [geom orient framebuffer]. rewrite Hp.
    destruct (physical_in_range _ _ _ _ _ _ Hin Hp) as [Hx Hy].
    rewrite list_lookup_insert_eq.
    + cbn [default]. apply write_bit_testbit.
      pose proof (bit_position_range py). lia.
    + rewrite Hwf. apply byte_index_in_buffer; assumption.
  - intros Hout. unfold setPixel. rewrite Hout. split; reflexivity.
Qed.

Lemma setPixel_read_back_witness :
  well_formed (blank panel_128x64)
  /\ in_bounds panel_128x64 Rot0 5 9 = true
  /\ getPixel (setPixel (blank panel_128x64) 5 9 ColorOn) 5 9 = true
  /\ in_bounds panel_128x64 Rot0 128 0 = false
  /\ framebuffer (setPixel (blank panel_128x64) 128 0 ColorOn)
       = framebuffer (blank panel_128x64).
Proof.
  assert (W : well_formed (blank panel_128x64)) by reflexivity.
  split; [exact W |]. split; [reflexivity |]. split.
  - exact (proj1 (setPixel_read_back (blank panel_128x64) 5 9 ColorOn W)
                 eq_refl).
  - split; [reflexivity |].
    exact (proj2 (proj2 (setPixel_read_back (blank panel_128x64) 128 0
                           ColorOn W) eq_refl)).
Defined.

(** ** Flushing the dirty region *)















(** * Further properties of [Adafruit_SH1107::begin] *)

(** X1. The value [begin] returns tells exactly how the init table
    submission went: it is success if and only if the run logged that
    submission as successful, and failure if and only if it logged it as
    failed.  Nothing else of the run (allocation, contrast transfer,
    display-on transfer) has a say. *)
Theorem begin_result_iff cfg env addr reset w :
  ((begin cfg env addr reset w).1 = true
   <-> CommandList init true ∈ begin_events cfg env addr reset w)
  /\ ((begin cfg env addr reset w).1 = false
      <-> CommandList init false ∈ begin_events cfg env addr reset w).
Proof.
  rewrite begin_result.
  assert (Hin : CommandList init (transfer_ok env (S (transfers w)))
                  ∈ begin_events cfg env addr reset w).
  { rewrite begin_events_run. apply elem_of_app. right.
    apply list_elem_of_here. }
  split; split.
  - intros E. rewrite E in Hin. exact Hin.
  - intros H. apply begin_command_lists in H as [_ H]. congruence.
  - intros E. rewrite E in Hin. exact Hin.
  - intros H. apply begin_command_lists in H as [_ H]. congruence.
Qed.








